(** * DeprecationItem: the data model of src/models.py

    A shallow embedding of the dataclass [DeprecationItem] and of its
    methods [__post_init__], [_compute_hash], [to_dict], [from_dict]
    and [matches_previous], with the properties the specification
    states about them.

    Modelling choices.
    - A Python [str] is a [string]: the sequence of bytes of its UTF-8
      encoding, so that [content.encode()] is the identity on the
      representation.  The substring tests and [split] of the source
      only look for the ASCII texts "or" and " ", which UTF-8 never
      produces inside a longer character, so working on bytes or on
      code points gives the same segments.
      A str with a lone surrogate, which has no UTF-8 encoding, is
      outside the model.
    - A dataclass does not check its annotations, and a dict decoded
      from JSON holds values of any shape, so fields and dict values
      are dynamic values ([pyval]): None, bool, int, str and list.
      Floats and nested dicts are left out of the universe, and so
      are the limits of the interpreter (the depth of recursion of
      [repr], the number of digits of an int turned into text).
    - A dict is an association list in insertion order.
    - The clock read by [__post_init__] is an explicit argument.
    - An exception is a [Raise] result. *)

From Stdlib Require Import ZArith List String Ascii Bool Arith Lia.
From Stdlib Require Import DecimalString.
Import ListNotations.

(** ** SHA-256 (FIPS 180-4), as [hashlib.sha256(...).hexdigest()] computes it *)

Module Sha256.
Local Open Scope Z_scope.

Definition word (x : Z) : Z := x mod 2 ^ 32.
Definition add32 (x y : Z) : Z := word (x + y).
Definition rotr (n x : Z) : Z :=
  word (Z.lor (Z.shiftr x n) (Z.shiftl x (32 - n))).
Definition xor3 (x y z : Z) : Z := Z.lxor (Z.lxor x y) z.

Definition Ch (x y z : Z) : Z :=
  Z.lxor (Z.land x y) (Z.land (Z.lnot x) z).
Definition Maj (x y z : Z) : Z :=
  xor3 (Z.land x y) (Z.land x z) (Z.land y z).
Definition Sigma0 (x : Z) : Z := xor3 (rotr 2 x) (rotr 13 x) (rotr 22 x).
Definition Sigma1 (x : Z) : Z := xor3 (rotr 6 x) (rotr 11 x) (rotr 25 x).
Definition sigma0 (x : Z) : Z := xor3 (rotr 7 x) (rotr 18 x) (Z.shiftr x 3).
Definition sigma1 (x : Z) : Z := xor3 (rotr 17 x) (rotr 19 x) (Z.shiftr x 10).

(** The value of a text of hexadecimal digits. *)
Definition hex_value (c : ascii) : Z :=
  let n := Z.of_nat (nat_of_ascii c) in
  if n <? 58 then n - 48 else n - 87.

Definition hex_word (s : string) : Z :=
  fold_left (fun acc c => acc * 16 + hex_value c) (list_ascii_of_string s) 0.

(** The round constants, in the order of the standard. *)
Definition K : list Z :=
  map hex_word
    [
      "428a2f98"; "71374491"; "b5c0fbcf"; "e9b5dba5";
      "3956c25b"; "59f111f1"; "923f82a4"; "ab1c5ed5";
      "d807aa98"; "12835b01"; "243185be"; "550c7dc3";
      "72be5d74"; "80deb1fe"; "9bdc06a7"; "c19bf174";
      "e49b69c1"; "efbe4786"; "0fc19dc6"; "240ca1cc";
      "2de92c6f"; "4a7484aa"; "5cb0a9dc"; "76f988da";
      "983e5152"; "a831c66d"; "b00327c8"; "bf597fc7";
      "c6e00bf3"; "d5a79147"; "06ca6351"; "14292967";
      "27b70a85"; "2e1b2138"; "4d2c6dfc"; "53380d13";
      "650a7354"; "766a0abb"; "81c2c92e"; "92722c85";
      "a2bfe8a1"; "a81a664b"; "c24b8b70"; "c76c51a3";
      "d192e819"; "d6990624"; "f40e3585"; "106aa070";
      "19a4c116"; "1e376c08"; "2748774c"; "34b0bcb5";
      "391c0cb3"; "4ed8aa4a"; "5b9cca4f"; "682e6ff3";
      "748f82ee"; "78a5636f"; "84c87814"; "8cc70208";
      "90befffa"; "a4506ceb"; "bef9a3f7"; "c67178f2" ]%string.

(** The eight working variables, also the running hash value. *)
Record state : Type := mkState {
  sa : Z; sb : Z; sc : Z; sd : Z; se : Z; sf : Z; sg : Z; sh : Z
}.

Definition H0 : state :=
  mkState 0x6a09e667 0xbb67ae85 0x3c6ef372 0xa54ff53a
          0x510e527f 0x9b05688c 0x1f83d9ab 0x5be0cd19.

(** Padding: a 1 bit, zeros up to 56 modulo 64 bytes, then the bit
    length as a 64-bit big-endian integer. *)
Fixpoint be_bytes (n : nat) (x : Z) : list Z :=
  match n with
  | O => []
  | S n' => (Z.shiftr x (8 * Z.of_nat n')) mod 256 :: be_bytes n' x
  end.

Definition pad (msg : list Z) : list Z :=
  let len := Z.of_nat (List.length msg) in
  msg ++ [0x80] ++ repeat 0 (Z.to_nat ((55 - len) mod 64))
      ++ be_bytes 8 (8 * len).

Fixpoint chunks (size n : nat) (bs : list Z) : list (list Z) :=
  match n with
  | O => []
  | S n' => firstn size bs :: chunks size n' (skipn size bs)
  end.

Definition be_word (bs : list Z) : Z :=
  fold_left (fun acc b => acc * 256 + b) bs 0.

Definition block_words (block : list Z) : list Z :=
  map be_word (chunks 4 16 block).

(** The message schedule, built with the newest word first. *)
Fixpoint extend (n : nat) (rw : list Z) : list Z :=
  match n with
  | O => rw
  | S n' =>
      let w := add32 (add32 (sigma1 (nth 1 rw 0)) (nth 6 rw 0))
                     (add32 (sigma0 (nth 14 rw 0)) (nth 15 rw 0)) in
      extend n' (w :: rw)
  end.

Definition schedule (block : list Z) : list Z :=
  rev (extend 48 (rev (block_words block))).

Definition round (s : state) (kw : Z * Z) : state :=
  let (k, w) := kw in
  let t1 := add32 (add32 (add32 (sh s) (Sigma1 (se s)))
                         (add32 (Ch (se s) (sf s) (sg s)) k)) w in
  let t2 := add32 (Sigma0 (sa s)) (Maj (sa s) (sb s) (sc s)) in
  mkState (add32 t1 t2) (sa s) (sb s) (sc s)
          (add32 (sd s) t1) (se s) (sf s) (sg s).

Definition compress (h : state) (block : list Z) : state :=
  let s := fold_left round (combine K (schedule block)) h in
  mkState (add32 (sa h) (sa s)) (add32 (sb h) (sb s))
          (add32 (sc h) (sc s)) (add32 (sd h) (sd s))
          (add32 (se h) (se s)) (add32 (sf h) (sf s))
          (add32 (sg h) (sg s)) (add32 (sh h) (sh s)).

Definition state_words (s : state) : list Z :=
  [sa s; sb s; sc s; sd s; se s; sf s; sg s; sh s].

(** The 32 bytes of the digest. *)
Definition digest (msg : list Z) : list Z :=
  let p := pad msg in
  let bs := chunks 64 (List.length p / 64) p in
  flat_map (be_bytes 4) (state_words (fold_left compress bs H0)).

Definition hex_digit (n : Z) : ascii :=
  match n with
  | 0 => "0" | 1 => "1" | 2 => "2" | 3 => "3" | 4 => "4" | 5 => "5"
  | 6 => "6" | 7 => "7" | 8 => "8" | 9 => "9" | 10 => "a" | 11 => "b"
  | 12 => "c" | 13 => "d" | 14 => "e" | _ => "f"
  end%char.

Fixpoint hex_of_bytes (bs : list Z) : string :=
  match bs with
  | [] => EmptyString
  | b :: bs' =>
      String (hex_digit (b / 16 mod 16))
        (String (hex_digit (b mod 16)) (hex_of_bytes bs'))
  end.

(** [content.encode()]: the bytes of the text. *)
Definition encode (s : string) : list Z :=
  map (fun c => Z.of_N (N_of_ascii c)) (list_ascii_of_string s).

(** [hashlib.sha256(content.encode()).hexdigest()] *)
Definition hexdigest (content : string) : string :=
  hex_of_bytes (digest (encode content)).

End Sha256.


(** ** Python values *)

Local Open Scope string_scope.

(** The values a field or a dict entry can hold. *)
#[local] Set Warnings "-register-all".
Inductive pyval : Type :=
| PyNone : pyval
| PyBool (b : bool) : pyval
| PyInt (n : Z) : pyval
| PyStr (s : string) : pyval
| PyList (l : list pyval) : pyval.

(** The exceptions the modelled code can raise. *)
Inductive pyexn : Type :=
| TypeError
| AttributeError.

Inductive pyres (A : Type) : Type :=
| Ok (a : A)
| Raise (e : pyexn).
Arguments Ok {A} a.
Arguments Raise {A} e.

Definition bind {A B : Type} (m : pyres A) (k : A -> pyres B) : pyres B :=
  match m with
  | Ok a => k a
  | Raise e => Raise e
  end.

Notation "x <- m ;; k" := (bind m (fun x => k))
  (at level 61, m at next level, right associativity).

(** [bool(v)], as [if v] and [not v] see a value. *)
Definition truthy (v : pyval) : bool :=
  match v with
  | PyNone => false
  | PyBool b => b
  | PyInt n => negb (n =? 0)%Z
  | PyStr s => negb (s =? "")
  | PyList l => match l with [] => false | _ :: _ => true end
  end.

(** [v is None] *)
Definition is_None (v : pyval) : bool :=
  match v with PyNone => true | _ => false end.

(** [a == b]: bool is a subclass of int, lists compare elementwise. *)
Fixpoint py_eq (a b : pyval) : bool :=
  match a, b with
  | PyNone, PyNone => true
  | PyBool x, PyBool y => Bool.eqb x y
  | PyBool x, PyInt n => (Z.b2z x =? n)%Z
  | PyInt m, PyBool y => (m =? Z.b2z y)%Z
  | PyInt m, PyInt n => (m =? n)%Z
  | PyStr s, PyStr t => (s =? t)
  | PyList l, PyList m =>
      (fix list_eq (l m : list pyval) {struct l} : bool :=
         match l, m with
         | [], [] => true
         | x :: l', y :: m' => py_eq x y && list_eq l' m'
         | _, _ => false
         end) l m
  | _, _ => false
  end.

(** ** Strings *)

(** [needle in s] on two strs: [needle] occurs in [s]. *)
Fixpoint str_contains (needle s : string) : bool :=
  prefix needle s ||
  match s with
  | EmptyString => false
  | String _ s' => str_contains needle s'
  end.

(** [s.split(sep)] for a non-empty [sep]: the text is cut at each
    occurrence of [sep], found from left to right without overlap.
    [skip] counts the characters of a separator still to be passed,
    [cur] is the segment being read. *)
Fixpoint split_from (sep s : string) (skip : nat) (cur : string)
  : list string :=
  match s with
  | EmptyString => [cur]
  | String c s' =>
      match skip with
      | S k => split_from sep s' k cur
      | O =>
          if prefix sep s
          then cur :: split_from sep s' (String.length sep - 1) ""
          else split_from sep s' 0 (cur ++ String c "")
      end
  end.

Definition split (sep s : string) : list string := split_from sep s 0 "".

(** [s[:n]] *)
Fixpoint str_take (n : nat) (s : string) : string :=
  match n, s with
  | S n', String c s' => String c (str_take n' s')
  | _, _ => ""
  end.

(** Decimal text of a number, and its zero-padded form ([%0wd]). *)
Definition dec_of_nat (n : nat) : string :=
  DecimalString.NilZero.string_of_uint (Nat.to_uint n).

Definition dec_of_Z (n : Z) : string :=
  DecimalString.NilZero.string_of_int (Z.to_int n).

Fixpoint zeros (n : nat) : string :=
  match n with
  | O => ""
  | S n' => String "0" (zeros n')
  end.

Definition zero_pad (w n : nat) : string :=
  let d := dec_of_nat n in zeros (w - String.length d) ++ d.

(** [repr] of a str.  The quote is the apostrophe unless the text has
    an apostrophe and no double quote; the backslash, the quote and
    the control characters are escaped.  Characters outside ASCII are
    kept as they are, which is what [repr] does with the printable
    ones; [repr] escapes the others (U+0085, U+00A0, U+2028, ...), and
    there the model's text of a list is not the interpreter's.  The
    properties that need the exact text keep to the values of
    [renders] below. *)
Definition dquote : ascii := ascii_of_nat 34.
Definition squote : ascii := ascii_of_nat 39.
Definition backslash : ascii := ascii_of_nat 92.

Definition repr_char (q c : ascii) : string :=
  let n := nat_of_ascii c in
  if (c =? backslash)%char then String backslash (String backslash "")
  else if (c =? q)%char then String backslash (String q "")
  else if (n =? 9)%nat then String backslash "t"
  else if (n =? 10)%nat then String backslash "n"
  else if (n =? 13)%nat then String backslash "r"
  else if (n <? 32)%nat || (n =? 127)%nat then
    String backslash
      (String "x" (String (Sha256.hex_digit (Z.of_nat (n / 16)))
                     (String (Sha256.hex_digit (Z.of_nat (n mod 16))) "")))
  else String c "".

Definition str_repr (s : string) : string :=
  let q :=
    if str_contains (String squote "") s
       && negb (str_contains (String dquote "") s)
    then dquote else squote in
  String q (concat "" (map (repr_char q) (list_ascii_of_string s)))
    ++ String q "".

(** [repr(v)], and [str(v)], which is what an f-string field shows. *)
Fixpoint py_repr (v : pyval) : string :=
  match v with
  | PyNone => "None"
  | PyBool b => if b then "True" else "False"
  | PyInt n => dec_of_Z n
  | PyStr s => str_repr s
  | PyList l => "[" ++ concat ", " (map py_repr l) ++ "]"
  end.

Definition py_str (v : pyval) : string :=
  match v with
  | PyStr s => s
  | _ => py_repr v
  end.

(** ** Operations that can raise *)

(** [needle in v], with [needle] a str. *)
Definition py_in (needle : string) (v : pyval) : pyres bool :=
  match v with
  | PyStr s => Ok (str_contains needle s)
  | PyList l => Ok (existsb (py_eq (PyStr needle)) l)
  | PyNone | PyBool _ | PyInt _ => Raise TypeError
  end.

(** [v.split(sep)] *)
Definition py_split (v : pyval) (sep : string) : pyres (list string) :=
  match v with
  | PyStr s => Ok (split sep s)
  | _ => Raise AttributeError
  end.

(** ** The clock *)

(** What [datetime.now(timezone.utc)] returns. *)
Record datetime : Type := mkDatetime {
  year : nat; month : nat; day : nat;
  hour : nat; minute : nat; second : nat; microsecond : nat
}.

(** [dt.isoformat()] of an aware UTC datetime. *)
Definition isoformat (dt : datetime) : string :=
  zero_pad 4 (year dt) ++ "-" ++ zero_pad 2 (month dt) ++ "-"
    ++ zero_pad 2 (day dt) ++ "T" ++ zero_pad 2 (hour dt) ++ ":"
    ++ zero_pad 2 (minute dt) ++ ":" ++ zero_pad 2 (second dt)
    ++ (if (microsecond dt =? 0)%nat then ""
        else "." ++ zero_pad 6 (microsecond dt))
    ++ "+00:00".

(** ** Dicts *)

Definition dict : Type := list (string * pyval).

Fixpoint dict_lookup (d : dict) (k : string) : option pyval :=
  match d with
  | [] => None
  | (k', v) :: d' => if k' =? k then Some v else dict_lookup d' k
  end.

(** [k in d] *)
Definition dict_has (d : dict) (k : string) : bool :=
  match dict_lookup d k with Some _ => true | None => false end.

(** [d.get(k, default)] and [d.get(k)] *)
Definition dict_get_or (d : dict) (k : string) (default : pyval) : pyval :=
  match dict_lookup d k with Some v => v | None => default end.

Definition dict_get (d : dict) (k : string) : pyval :=
  dict_get_or d k PyNone.

(** ** DeprecationItem *)

Record DeprecationItem : Type := mkDeprecationItem {
  provider : pyval;
  model_id : pyval;
  model_name : pyval;
  announcement_date : pyval;
  shutdown_date : pyval;
  replacement_models : pyval;
  deprecation_context : pyval;
  url : pyval;
  content_hash : pyval;
  scraped_at : pyval
}.

Definition set_scraped_at (self : DeprecationItem) (v : pyval) :=
  mkDeprecationItem (provider self) (model_id self) (model_name self)
    (announcement_date self) (shutdown_date self) (replacement_models self)
    (deprecation_context self) (url self) (content_hash self) v.

Definition set_content_hash (self : DeprecationItem) (v : pyval) :=
  mkDeprecationItem (provider self) (model_id self) (model_name self)
    (announcement_date self) (shutdown_date self) (replacement_models self)
    (deprecation_context self) (url self) v (scraped_at self).

(** [hashlib.sha256(content.encode()).hexdigest()[:16]] *)
Definition _compute_hash (content : string) : string :=
  str_take 16 (Sha256.hexdigest content).

Arguments Sha256.hexdigest : simpl never.
Arguments _compute_hash : simpl never.

Arguments isoformat : simpl never.

(** The f-string of [__post_init__]. *)
Definition unique_content (self : DeprecationItem) : string :=
  py_str (provider self) ++ "|" ++ py_str (model_id self) ++ "|"
    ++ py_str (shutdown_date self) ++ "|" ++ py_str (announcement_date self).

Definition __post_init__ (now : datetime) (self : DeprecationItem)
  : DeprecationItem :=
  let self :=
    if negb (truthy (scraped_at self))
    then set_scraped_at self (PyStr (isoformat now))
    else self in
  if negb (truthy (content_hash self))
  then set_content_hash self (PyStr (_compute_hash (unique_content self)))
  else self.

(** The generated [__init__]: the fields are stored, then
    [__post_init__] runs. *)
Definition DeprecationItem_init (now : datetime)
  (provider model_id model_name announcement_date shutdown_date
   replacement_models deprecation_context url content_hash scraped_at : pyval)
  : DeprecationItem :=
  __post_init__ now
    (mkDeprecationItem provider model_id model_name announcement_date
       shutdown_date replacement_models deprecation_context url
       content_hash scraped_at).

(** A call that gives the five required fields only: the others take
    their declared defaults. *)
Definition DeprecationItem_required (now : datetime)
  (provider model_id model_name announcement_date shutdown_date : pyval)
  : DeprecationItem :=
  DeprecationItem_init now provider model_id model_name announcement_date
    shutdown_date PyNone (PyStr "") (PyStr "") (PyStr "") (PyStr "").

Definition to_dict (self : DeprecationItem) : dict :=
  [ ("provider", provider self);
    ("model_id", model_id self);
    ("model_name", model_name self);
    ("announcement_date", announcement_date self);
    ("shutdown_date", shutdown_date self);
    ("replacement_models", replacement_models self);
    ("deprecation_context", deprecation_context self);
    ("url", url self);
    ("content_hash", content_hash self);
    ("scraped_at", scraped_at self) ].

(** [" " not in seg] *)
Definition no_space (seg : string) : bool := negb (str_contains " " seg).

(** Lines 60-73 of [from_dict]: the value given to
    [replacement_models].  The three tests of line 66 are evaluated
    from left to right and stop at the first false one. *)
Definition legacy_replacement_models (data : dict) : pyres pyval :=
  let replacement_models := dict_get data "replacement_models" in
  if is_None replacement_models && dict_has data "replacement_model" then
    let old_value := dict_get data "replacement_model" in
    if truthy old_value then
      has_or <- py_in "or" old_value ;;
      first_ok <-
        (if has_or
         then parts <- py_split old_value "or" ;;
              Ok (no_space (hd "" parts))
         else Ok false) ;;
      last_ok <-
        (if first_ok
         then parts <- py_split old_value "or" ;;
              Ok (no_space (last parts ""))
         else Ok false) ;;
      if last_ok then
        parts <- py_split old_value "or" ;;
        Ok (PyList (map PyStr (filter (fun m => negb (m =? "")) parts)))
      else Ok (PyList [old_value])
    else Ok PyNone
  else Ok replacement_models.

Definition from_dict (now : datetime) (data : dict)
  : pyres DeprecationItem :=
  replacement_models <- legacy_replacement_models data ;;
  Ok (DeprecationItem_init now
        (dict_get_or data "provider" (PyStr ""))
        (dict_get_or data "model_id" (PyStr ""))
        (dict_get_or data "model_name" (PyStr ""))
        (dict_get_or data "announcement_date" (PyStr ""))
        (dict_get_or data "shutdown_date" (PyStr ""))
        replacement_models
        (dict_get_or data "deprecation_context" (PyStr ""))
        (dict_get_or data "url" (PyStr ""))
        (dict_get_or data "content_hash" (PyStr ""))
        (dict_get_or data "scraped_at" (PyStr ""))).

Definition matches_previous (self other : DeprecationItem) : bool :=
  py_eq (provider self) (provider other)
  && py_eq (model_id self) (model_id other)
  && py_eq (content_hash self) (content_hash other).

(** ** What the specification's words mean *)


Fixpoint string_forallb (p : ascii -> bool) (s : string) : bool :=
  match s with
  | EmptyString => true
  | String c s' => p c && string_forallb p s'
  end.


(** A lowercase hexadecimal digit. *)
Definition is_lower_hex (c : ascii) : bool :=
  let n := nat_of_ascii c in
  ((48 <=? n) && (n <=? 57) || (97 <=? n) && (n <=? 102))%nat.

(** A str of exactly 16 lowercase hexadecimal digits. *)
Definition is_hash16 (v : pyval) : bool :=
  match v with
  | PyStr s => (String.length s =? 16)%nat && string_forallb is_lower_hex s
  | _ => false
  end.

(** A record with the five descriptive fields replaced. *)
Definition with_descriptive (a : DeprecationItem)
  (model_name replacement_models deprecation_context url scraped_at : pyval)
  : DeprecationItem :=
  mkDeprecationItem (provider a) (model_id a) model_name
    (announcement_date a) (shutdown_date a) replacement_models
    deprecation_context url (content_hash a) scraped_at.




(** The legacy value is read and is a value on which line 66 raises:
    True or a non-zero int, or a list with the element "or". *)
Definition legacy_value_rejected (data : dict) : bool :=
  is_None (dict_get data "replacement_models")
  && dict_has data "replacement_model"
  && match dict_get data "replacement_model" with
     | PyBool b => b
     | PyInt n => negb (n =? 0)%Z
     | PyList l => existsb (py_eq (PyStr "or")) l
     | PyNone | PyStr _ => false
     end.


(** The dict without the key [k], as [del d[k]] leaves it. *)
Definition dict_remove (d : dict) (k : string) : dict :=
  filter (fun kv => negb (fst kv =? k)) d.

(** The keys [from_dict] reads. *)
Definition from_dict_keys : list string :=
  ["replacement_models"; "replacement_model"; "provider"; "model_id";
   "model_name"; "announcement_date"; "shutdown_date";
   "deprecation_context"; "url"; "content_hash"; "scraped_at"].

(** The number of digits up to which the interpreter turns an int into
    text ([sys.int_info.default_max_str_digits]). *)
Definition max_str_digits : Z := 4300.

(** The values whose text in the f-string of line 33 is [py_str]: None,
    a bool, a str, and an int within the digit limit.  On a longer int
    the f-string raises ValueError, which [py_str] does not show; a
    list is left out, [py_repr] following the interpreter neither on
    deeply nested lists (RecursionError) nor on strs with non-printable
    characters. *)
Definition renders (v : pyval) : bool :=
  match v with
  | PyNone | PyBool _ | PyStr _ => true
  | PyInt n => (Z.abs n <? 10 ^ max_str_digits)%Z
  | PyList _ => false
  end.

(** [__post_init__] on this record either does not reach line 33, the
    hash being given, or reaches it with four values of [renders]. *)
Definition hash_text_known (self : DeprecationItem) : bool :=
  truthy (content_hash self)
  || (renders (provider self) && renders (model_id self)
      && renders (shutdown_date self) && renders (announcement_date self)).



(** Two readings of the clock used in the examples. *)
Definition noon : datetime := mkDatetime 2024 5 6 12 0 0 0.
Definition later : datetime := mkDatetime 2024 5 6 12 0 1 1234.

(** ** Checks of the model on known values *)

Example sha256_abc :
  Sha256.hexdigest "abc"
  = "ba7816bf8f01cfea414140de5dae2223b00361a396177a9cb410ff61f20015ad".
Proof. vm_compute. reflexivity. Qed.

Example sha256_empty :
  Sha256.hexdigest ""
  = "e3b0c44298fc1c149afbf4c8996fb92427ae41e4649b934ca495991b7852b855".
Proof. vm_compute. reflexivity. Qed.

Example sha256_two_blocks :
  Sha256.hexdigest
    "abcdbcdecdefdefgefghfghighijhijkijkljklmklmnlmnomnopnopq"
  = "248d6a61d20638b8e5c026930c3e6039a33ce45964ff2167f6ecedd419db06c1".
Proof. vm_compute. reflexivity. Qed.

Example split_two_models :
  split "or" "gpt-image-1orgpt-image-1-mini"
  = ["gpt-image-1"; "gpt-image-1-mini"].
Proof. reflexivity. Qed.

Example split_no_separator : split "or" "gpt-4-turbo" = ["gpt-4-turbo"].
Proof. reflexivity. Qed.

Example split_only_separators : split "or" "oror" = [""; ""; ""].
Proof. reflexivity. Qed.

Example isoformat_noon : isoformat noon = "2024-05-06T12:00:00+00:00".
Proof. reflexivity. Qed.

Example isoformat_later :
  isoformat later = "2024-05-06T12:00:01.001234+00:00".
Proof. reflexivity. Qed.

(** ** Lemmas on the digest *)

Lemma hex_digit_lower_hex (n : Z) : is_lower_hex (Sha256.hex_digit n) = true.
Proof.
  unfold Sha256.hex_digit.
  destruct n as [|p|p]; try reflexivity;
    do 5 (try (destruct p as [p|p|]; try reflexivity)).
Qed.

Lemma hex_of_bytes_length (bs : list Z) :
  String.length (Sha256.hex_of_bytes bs) = 2 * List.length bs.
Proof.
  induction bs as [|b bs IH]; simpl; [reflexivity | rewrite IH; lia].
Qed.

Lemma hex_of_bytes_lower_hex (bs : list Z) :
  string_forallb is_lower_hex (Sha256.hex_of_bytes bs) = true.
Proof.
  induction bs as [|b bs IH]; simpl; [reflexivity |].
  now rewrite !hex_digit_lower_hex, IH.
Qed.

Lemma digest_length (msg : list Z) : List.length (Sha256.digest msg) = 32.
Proof.
  unfold Sha256.digest.
  generalize (fold_left Sha256.compress
                (Sha256.chunks 64 (List.length (Sha256.pad msg) / 64)
                   (Sha256.pad msg)) Sha256.H0).
  intros st. reflexivity.
Qed.

Lemma hexdigest_length (content : string) :
  String.length (Sha256.hexdigest content) = 64.
Proof.
  unfold Sha256.hexdigest. now rewrite hex_of_bytes_length, digest_length.
Qed.

Lemma hexdigest_lower_hex (content : string) :
  string_forallb is_lower_hex (Sha256.hexdigest content) = true.
Proof. apply hex_of_bytes_lower_hex. Qed.

Lemma str_take_length (n : nat) (s : string) :
  String.length (str_take n s) = Nat.min n (String.length s).
Proof.
  revert s; induction n as [|n IH]; intros [|c s]; simpl; auto.
Qed.

Lemma str_take_forallb (p : ascii -> bool) (n : nat) (s : string) :
  string_forallb p s = true -> string_forallb p (str_take n s) = true.
Proof.
  revert s; induction n as [|n IH]; intros [|c s]; simpl; auto.
  intros H; apply andb_true_iff in H as [Hc Hs].
  now rewrite Hc, IH.
Qed.

Lemma compute_hash_length (content : string) :
  String.length (_compute_hash content) = 16.
Proof.
  unfold _compute_hash. now rewrite str_take_length, hexdigest_length.
Qed.

Lemma compute_hash_is_hash16 (content : string) :
  is_hash16 (PyStr (_compute_hash content)) = true.
Proof.
  unfold is_hash16. rewrite compute_hash_length.
  apply andb_true_iff; split; [reflexivity |].
  unfold _compute_hash. apply str_take_forallb, hexdigest_lower_hex.
Qed.

Lemma length_16_truthy (s : string) :
  String.length s = 16 -> truthy (PyStr s) = true.
Proof. destruct s; [discriminate | reflexivity]. Qed.

Lemma compute_hash_truthy (content : string) :
  truthy (PyStr (_compute_hash content)) = true.
Proof. apply length_16_truthy, compute_hash_length. Qed.

(** ** Lemmas on the timestamp *)

Lemma append_cons_truthy (s t : string) (c : ascii) :
  truthy (PyStr (s ++ String c t)) = true.
Proof. destruct s; reflexivity. Qed.

Lemma isoformat_truthy (now : datetime) : truthy (PyStr (isoformat now)) = true.
Proof. unfold isoformat. apply append_cons_truthy. Qed.

(** ** Lemmas on [__post_init__] *)

Lemma post_init_scraped_at (now : datetime) (self : DeprecationItem) :
  scraped_at (__post_init__ now self)
  = if truthy (scraped_at self) then scraped_at self
    else PyStr (isoformat now).
Proof.
  unfold __post_init__.
  destruct (truthy (scraped_at self)); simpl;
    destruct (truthy (content_hash self)); reflexivity.
Qed.

Lemma post_init_content_hash (now : datetime) (self : DeprecationItem) :
  content_hash (__post_init__ now self)
  = if truthy (content_hash self) then content_hash self
    else PyStr (_compute_hash (unique_content self)).
Proof.
  unfold __post_init__.
  destruct (truthy (scraped_at self)); simpl;
    destruct (truthy (content_hash self)); reflexivity.
Qed.

Lemma post_init_truthy (now : datetime) (self : DeprecationItem) :
  truthy (scraped_at (__post_init__ now self)) = true
  /\ truthy (content_hash (__post_init__ now self)) = true.
Proof.
  rewrite post_init_scraped_at, post_init_content_hash. split.
  - destruct (truthy (scraped_at self)) eqn:E; [exact E | apply isoformat_truthy].
  - destruct (truthy (content_hash self)) eqn:E;
      [exact E | apply compute_hash_truthy].
Qed.

Lemma post_init_fixed (now : datetime) (self : DeprecationItem) :
  truthy (scraped_at self) = true ->
  truthy (content_hash self) = true ->
  __post_init__ now self = self.
Proof.
  intros Hs Hc. unfold __post_init__. rewrite Hs. simpl. now rewrite Hc.
Qed.

Lemma from_dict_to_dict (now : datetime) (r : DeprecationItem) :
  truthy (scraped_at r) = true ->
  truthy (content_hash r) = true ->
  from_dict now (to_dict r) = Ok r.
Proof.
  intros Hs Hc.
  unfold from_dict, legacy_replacement_models, to_dict, dict_get, dict_get_or,
    dict_has.
  simpl. rewrite andb_false_r. simpl.
  unfold DeprecationItem_init. rewrite post_init_fixed by assumption.
  destruct r; reflexivity.
Qed.

(** ** Lemmas on [==] *)

(** Induction on values, with the hypothesis for every element of a list. *)
Lemma pyval_ind_list (P : pyval -> Prop) :
  P PyNone ->
  (forall b, P (PyBool b)) ->
  (forall n, P (PyInt n)) ->
  (forall s, P (PyStr s)) ->
  (forall l, Forall P l -> P (PyList l)) ->
  forall v, P v.
Proof.
  intros HN HB HI HS HL. fix IH 1.
  intros [| b | n | s | l]; [exact HN | apply HB | apply HI | apply HS |].
  apply HL. induction l as [| x l IHl]; constructor; [apply IH | exact IHl].
Qed.

Lemma py_eq_refl (v : pyval) : py_eq v v = true.
Proof.
  induction v as [| b | n | s | l IH] using pyval_ind_list; simpl.
  - reflexivity.
  - now destruct b.
  - apply Z.eqb_refl.
  - apply String.eqb_refl.
  - induction IH as [| x l Hx _ IHl]; [reflexivity |].
    now rewrite Hx, IHl.
Qed.

Lemma py_eq_sym (a b : pyval) : py_eq a b = py_eq b a.
Proof.
  revert b.
  induction a as [| x | m | s | l IH] using pyval_ind_list;
    intros [| y | n | t | l']; simpl; try reflexivity.
  - now destruct x, y.
  - apply Z.eqb_sym.
  - apply Z.eqb_sym.
  - apply Z.eqb_sym.
  - apply String.eqb_sym.
  - revert l'. induction IH as [| x l Hx _ IHl]; intros [| y l'];
      try reflexivity.
    now rewrite Hx, IHl.
Qed.

Lemma py_eq_str (s t : string) : py_eq (PyStr s) (PyStr t) = true <-> s = t.
Proof. simpl. apply String.eqb_eq. Qed.

Lemma matches_previous_refl (a : DeprecationItem) : matches_previous a a = true.
Proof. unfold matches_previous. now rewrite !py_eq_refl. Qed.

Lemma matches_previous_sym (a b : DeprecationItem) :
  matches_previous a b = matches_previous b a.
Proof.
  unfold matches_previous.
  now rewrite (py_eq_sym (provider a)), (py_eq_sym (model_id a)),
    (py_eq_sym (content_hash a)).
Qed.

(** ** Lemmas on construction and [from_dict] *)

(** [__post_init__] writes [scraped_at] and [content_hash] only. *)
Lemma post_init_fields (now : datetime) (self : DeprecationItem) :
  let r := __post_init__ now self in
  provider r = provider self
  /\ model_id r = model_id self
  /\ model_name r = model_name self
  /\ announcement_date r = announcement_date self
  /\ shutdown_date r = shutdown_date self
  /\ replacement_models r = replacement_models self
  /\ deprecation_context r = deprecation_context self
  /\ url r = url self.
Proof.
  unfold __post_init__.
  destruct (truthy (scraped_at self)); simpl;
    destruct (truthy (content_hash self)); simpl; repeat split.
Qed.

Lemma from_dict_unfold (now : datetime) (data : dict) :
  from_dict now data
  = match legacy_replacement_models data with
    | Ok rm =>
        Ok (DeprecationItem_init now
              (dict_get_or data "provider" (PyStr ""))
              (dict_get_or data "model_id" (PyStr ""))
              (dict_get_or data "model_name" (PyStr ""))
              (dict_get_or data "announcement_date" (PyStr ""))
              (dict_get_or data "shutdown_date" (PyStr ""))
              rm
              (dict_get_or data "deprecation_context" (PyStr ""))
              (dict_get_or data "url" (PyStr ""))
              (dict_get_or data "content_hash" (PyStr ""))
              (dict_get_or data "scraped_at" (PyStr "")))
    | Raise e => Raise e
    end.
Proof. reflexivity. Qed.

(** When the migration step returns, [from_dict] returns a record
    that holds its value. *)
Lemma from_dict_replacement (now : datetime) (data : dict) (rm : pyval) :
  legacy_replacement_models data = Ok rm ->
  exists r, from_dict now data = Ok r /\ replacement_models r = rm.
Proof.
  intros H. rewrite from_dict_unfold, H. eexists; split; [reflexivity |].
  unfold DeprecationItem_init.
  now destruct (post_init_fields now
    (mkDeprecationItem (dict_get_or data "provider" (PyStr ""))
       (dict_get_or data "model_id" (PyStr ""))
       (dict_get_or data "model_name" (PyStr ""))
       (dict_get_or data "announcement_date" (PyStr ""))
       (dict_get_or data "shutdown_date" (PyStr "")) rm
       (dict_get_or data "deprecation_context" (PyStr ""))
       (dict_get_or data "url" (PyStr ""))
       (dict_get_or data "content_hash" (PyStr ""))
       (dict_get_or data "scraped_at" (PyStr ""))))
    as (_ & _ & _ & _ & _ & Hr & _).
Qed.

(** The hash of a construction that gives no hash. *)
Lemma init_content_hash_empty (now : datetime)
  (p mi mn ad sd rm dc u sa : pyval) :
  content_hash (DeprecationItem_init now p mi mn ad sd rm dc u (PyStr "") sa)
  = PyStr (_compute_hash
             (py_str p ++ "|" ++ py_str mi ++ "|" ++ py_str sd ++ "|"
                ++ py_str ad)).
Proof.
  unfold DeprecationItem_init. rewrite post_init_content_hash. reflexivity.
Qed.

(** ** The claims *)

(** C1. A construction whose [content_hash] is the empty string (the
    default of an omitted argument) gets as [content_hash] the first 16
    hexadecimal characters of the SHA-256 digest of
    provider|model_id|shutdown_date|announcement_date; the OpenAI
    example of the specification gets the truncated digest of
    "OpenAI|gpt-4-32k-0613|2025-01-01|2024-01-01", which is
    70183dd6388c56b4. *)
Theorem content_hash_derived :
  (forall (now : datetime) (p mi ad sd : string) (mn rm dc u sa : pyval),
     content_hash
       (DeprecationItem_init now (PyStr p) (PyStr mi) mn (PyStr ad) (PyStr sd)
          rm dc u (PyStr "") sa)
     = PyStr (str_take 16
                (Sha256.hexdigest (p ++ "|" ++ mi ++ "|" ++ sd ++ "|" ++ ad))))
  /\ (forall now : datetime,
        content_hash
          (DeprecationItem_required now (PyStr "OpenAI")
             (PyStr "gpt-4-32k-0613") (PyStr "GPT-4 32k")
             (PyStr "2024-01-01") (PyStr "2025-01-01"))
        = PyStr (str_take 16
                   (Sha256.hexdigest
                      "OpenAI|gpt-4-32k-0613|2025-01-01|2024-01-01")))
  /\ str_take 16
       (Sha256.hexdigest "OpenAI|gpt-4-32k-0613|2025-01-01|2024-01-01")
     = "70183dd6388c56b4".
Proof.
  split; [| split].
  - intros. apply init_content_hash_empty.
  - intros. unfold DeprecationItem_required.
    rewrite init_content_hash_empty. reflexivity.
  - vm_compute. reflexivity.
Qed.

(** C2. A record made by a construction, whatever the ten arguments
    and the clock, is returned unchanged by [from_dict] applied to its
    [to_dict], whatever the clock then: all ten fields are equal, so
    [scraped_at] and [content_hash] are kept and a null
    [replacement_models] stays null. *)
Theorem from_dict_to_dict_roundtrip :
  forall (now now' : datetime) (p mi mn ad sd rm dc u ch sa : pyval),
    let r := DeprecationItem_init now p mi mn ad sd rm dc u ch sa in
    from_dict now' (to_dict r) = Ok r
    /\ replacement_models r = rm.
Proof.
  intros. subst r. unfold DeprecationItem_init.
  set (self := mkDeprecationItem p mi mn ad sd rm dc u ch sa).
  destruct (post_init_truthy now self) as [Hs Hc]. split.
  - now apply from_dict_to_dict.
  - now destruct (post_init_fields now self) as (_ & _ & _ & _ & _ & Hr & _).
Qed.

(** C4. [matches_previous] is true exactly when provider, model_id
    and content_hash are pairwise [==]; on strs [==] is equality of
    the texts.  It is reflexive and symmetric, and replacing
    model_name, replacement_models, deprecation_context, url or
    scraped_at in either record does not change its result. *)
Theorem matches_previous_spec :
  (forall a b : DeprecationItem,
     matches_previous a b = true
     <-> py_eq (provider a) (provider b) = true
         /\ py_eq (model_id a) (model_id b) = true
         /\ py_eq (content_hash a) (content_hash b) = true)
  /\ (forall s t : string, py_eq (PyStr s) (PyStr t) = true <-> s = t)
  /\ (forall a : DeprecationItem, matches_previous a a = true)
  /\ (forall a b : DeprecationItem,
        matches_previous a b = matches_previous b a)
  /\ (forall (a b : DeprecationItem) (mn rm dc u sa mn' rm' dc' u' sa' : pyval),
        matches_previous (with_descriptive a mn rm dc u sa)
          (with_descriptive b mn' rm' dc' u' sa')
        = matches_previous a b).
Proof.
  repeat split.
  - unfold matches_previous in H.
    apply andb_true_iff in H as [H _]. now apply andb_true_iff in H.
  - unfold matches_previous in H.
    apply andb_true_iff in H as [H _]. now apply andb_true_iff in H.
  - unfold matches_previous in H. now apply andb_true_iff in H.
  - intros (Hp & Hm & Hc). unfold matches_previous. now rewrite Hp, Hm, Hc.
  - apply py_eq_str.
  - apply py_eq_str.
  - apply matches_previous_refl.
  - apply matches_previous_sym.
Qed.

(** C8. [to_dict] gives exactly the ten keys provider, model_id,
    model_name, announcement_date, shutdown_date, replacement_models,
    deprecation_context, url, content_hash, scraped_at, in this order,
    each bound to the field of the record; replacement_models is bound
    to the field as it is, None or the list. *)
Theorem to_dict_fields :
  forall r : DeprecationItem,
    map fst (to_dict r)
    = ["provider"; "model_id"; "model_name"; "announcement_date";
       "shutdown_date"; "replacement_models"; "deprecation_context";
       "url"; "content_hash"; "scraped_at"]
    /\ map snd (to_dict r)
       = [provider r; model_id r; model_name r; announcement_date r;
          shutdown_date r; replacement_models r; deprecation_context r;
          url r; content_hash r; scraped_at r]
    /\ dict_lookup (to_dict r) "provider" = Some (provider r)
    /\ dict_lookup (to_dict r) "model_id" = Some (model_id r)
    /\ dict_lookup (to_dict r) "model_name" = Some (model_name r)
    /\ dict_lookup (to_dict r) "announcement_date"
       = Some (announcement_date r)
    /\ dict_lookup (to_dict r) "shutdown_date" = Some (shutdown_date r)
    /\ dict_lookup (to_dict r) "replacement_models"
       = Some (replacement_models r)
    /\ dict_lookup (to_dict r) "deprecation_context"
       = Some (deprecation_context r)
    /\ dict_lookup (to_dict r) "url" = Some (url r)
    /\ dict_lookup (to_dict r) "content_hash" = Some (content_hash r)
    /\ dict_lookup (to_dict r) "scraped_at" = Some (scraped_at r).
Proof. intros r. repeat split. Qed.

(** C9. The migration splits a single name that merely contains "or":
    for the dict with the only key replacement_model bound to "orca",
    [from_dict] gives replacement_models ["ca"], not ["orca"], since
    "orca" splits into "" and "ca" and the empty segment is dropped. *)
Theorem legacy_orca_is_split :
  forall now : datetime,
    split "or" "orca" = [""; "ca"]
    /\ exists r : DeprecationItem,
         from_dict now [("replacement_model", PyStr "orca")] = Ok r
         /\ replacement_models r = PyList [PyStr "ca"]
         /\ replacement_models r <> PyList [PyStr "orca"].
Proof.
  intros now. split; [reflexivity |].
  destruct (from_dict_replacement now [("replacement_model", PyStr "orca")]
              (PyList [PyStr "ca"]) eq_refl) as (r & Hr & Hm).
  exists r. rewrite Hm. repeat split; [exact Hr | discriminate].
Qed.

(** C10. The derived hash is a function of the pipe-joined text only,
    so it does not determine the four fields: with no hash given,
    provider "a|b" with model_id "c" and provider "a" with model_id
    "b|c", at equal dates, get the same content_hash, and the two
    records do not match. *)
Theorem content_hash_collision :
  forall (now now' : datetime) (mn mn' : pyval) (ad sd : string),
    let a := DeprecationItem_required now (PyStr "a|b") (PyStr "c") mn
               (PyStr ad) (PyStr sd) in
    let b := DeprecationItem_required now' (PyStr "a") (PyStr "b|c") mn'
               (PyStr ad) (PyStr sd) in
    content_hash a = content_hash b
    /\ content_hash a = PyStr (_compute_hash ("a|b|c|" ++ sd ++ "|" ++ ad))
    /\ matches_previous a b = false
    /\ provider a <> provider b
    /\ model_id a <> model_id b.
Proof.
  intros. subst a b. unfold DeprecationItem_required.
  rewrite !init_content_hash_empty. unfold matches_previous, DeprecationItem_init.
  set (x := mkDeprecationItem (PyStr "a|b") _ _ _ _ _ _ _ _ _).
  set (y := mkDeprecationItem (PyStr "a") _ _ _ _ _ _ _ _ _).
  destruct (post_init_fields now x) as (Hpx & Hmx & _).
  destruct (post_init_fields now' y) as (Hpy & Hmy & _).
  rewrite Hpx, Hmx, Hpy, Hmy. subst x y. simpl.
  repeat split; discriminate.
Qed.

(** ** Lemmas on the migration step *)





Lemma legacy_rejects (data : dict) :
  legacy_value_rejected data = true ->
  exists e, legacy_replacement_models data = Raise e.
Proof.
  unfold legacy_value_rejected, legacy_replacement_models.
  destruct (is_None (dict_get data "replacement_models")); [| discriminate].
  destruct (dict_has data "replacement_model"); [| discriminate].
  simpl.
  destruct (dict_get data "replacement_model") as [| b | n | s | l]; simpl;
    try discriminate.
  - intros ->; eexists; reflexivity.
  - intros ->; eexists; reflexivity.
  - intros H. rewrite H. destruct l; [discriminate | eexists; reflexivity].
Qed.




(** C5, as the specification states it, fails: the empty dict has
    neither content_hash nor scraped_at, and the record [from_dict]
    makes of it holds the derived hash and the timestamp of the
    clock, not empty strings. *)
Lemma from_dict_empty_counterexample :
  exists r : DeprecationItem,
    from_dict noon [] = Ok r
    /\ content_hash r = PyStr "be5be69f55e91af2"
    /\ content_hash r <> PyStr ""
    /\ scraped_at r = PyStr "2024-05-06T12:00:00+00:00"
    /\ scraped_at r <> PyStr "".
Proof.
  eexists. split; [reflexivity |]. vm_compute.
  repeat split; discriminate.
Qed.

(** C5, amended.  In the record [from_dict] returns, a missing key
    among provider, model_id, model_name, announcement_date,
    shutdown_date, deprecation_context and url leaves the field the
    empty string; replacement_models is what the migration step
    gives; a missing content_hash gives the hash derived from the four
    identity fields and a missing scraped_at gives the timestamp of
    the clock.  The empty dict gives the record of empty strings with
    null replacement_models, the hash of "|||" and the timestamp. *)
Theorem from_dict_missing_keys :
  (forall (now : datetime) (data : dict) (r : DeprecationItem),
     from_dict now data = Ok r ->
     (dict_lookup data "provider" = None -> provider r = PyStr "")
     /\ (dict_lookup data "model_id" = None -> model_id r = PyStr "")
     /\ (dict_lookup data "model_name" = None -> model_name r = PyStr "")
     /\ (dict_lookup data "announcement_date" = None ->
         announcement_date r = PyStr "")
     /\ (dict_lookup data "shutdown_date" = None ->
         shutdown_date r = PyStr "")
     /\ (dict_lookup data "deprecation_context" = None ->
         deprecation_context r = PyStr "")
     /\ (dict_lookup data "url" = None -> url r = PyStr "")
     /\ legacy_replacement_models data = Ok (replacement_models r)
     /\ (dict_lookup data "content_hash" = None ->
         content_hash r = PyStr (_compute_hash (unique_content r)))
     /\ (dict_lookup data "scraped_at" = None ->
         scraped_at r = PyStr (isoformat now)))
  /\ (forall now : datetime,
        from_dict now []
        = Ok (mkDeprecationItem (PyStr "") (PyStr "") (PyStr "") (PyStr "")
                (PyStr "") PyNone (PyStr "") (PyStr "")
                (PyStr (_compute_hash "|||")) (PyStr (isoformat now)))).
Proof.
  split; [| reflexivity].
  intros now data r H. rewrite from_dict_unfold in H.
  destruct (legacy_replacement_models data) as [rm | e]; [| discriminate].
  injection H as <-. unfold DeprecationItem_init.
  match goal with |- context [__post_init__ now ?x] => set (self := x) end.
  destruct (post_init_fields now self)
    as (Hp & Hmi & Hmn & Had & Hsd & Hrm & Hdc & Hu).
  rewrite Hp, Hmi, Hmn, Had, Hsd, Hrm, Hdc, Hu.
  rewrite post_init_content_hash, post_init_scraped_at.
  unfold unique_content. rewrite Hp, Hmi, Had, Hsd.
  subst self. unfold dict_get_or. simpl.
  repeat split; intros ->; reflexivity.
Qed.

Lemma from_dict_missing_keys_witness :
  content_hash
    (DeprecationItem_init noon (PyStr "OpenAI") (PyStr "") (PyStr "")
       (PyStr "") (PyStr "") PyNone (PyStr "") (PyStr "") (PyStr "")
       (PyStr "2024-01-01T00:00:00+00:00"))
  = PyStr (_compute_hash "OpenAI|||").
Proof.
  exact (proj1 (proj2 (proj2 (proj2 (proj2 (proj2 (proj2 (proj2 (proj2
           (proj1 from_dict_missing_keys noon
              [("provider", PyStr "OpenAI");
               ("scraped_at", PyStr "2024-01-01T00:00:00+00:00")]
              _ eq_refl)))))))))
           eq_refl).
Defined.

(** C6, as the specification states it, fails: a hash given
    explicitly is stored as it is, by the constructor and by
    [from_dict], whatever its form. *)
Lemma explicit_hash_counterexample :
  content_hash
    (DeprecationItem_init noon (PyStr "OpenAI") (PyStr "gpt-4")
       (PyStr "GPT-4") (PyStr "2024-01-01") (PyStr "2025-01-01") PyNone
       (PyStr "") (PyStr "") (PyStr "XYZ") (PyStr ""))
  = PyStr "XYZ"
  /\ (exists r : DeprecationItem,
        from_dict noon [("content_hash", PyStr "XYZ")] = Ok r
        /\ content_hash r = PyStr "XYZ")
  /\ is_hash16 (PyStr "XYZ") = false.
Proof.
  split; [reflexivity |]. split; [| reflexivity].
  eexists. split; reflexivity.
Qed.

(** C6, amended.  When the constructor is given no hash (the argument
    is empty, or is any other falsy value), and when [from_dict] finds
    no hash in the dict (the key is missing or its value is falsy),
    the record's content_hash is a str of exactly 16 lowercase
    hexadecimal digits; a hash that is given is kept as it is. *)
Theorem content_hash_format :
  (forall (now : datetime) (p mi mn ad sd rm dc u ch sa : pyval),
     truthy ch = false ->
     is_hash16
       (content_hash (DeprecationItem_init now p mi mn ad sd rm dc u ch sa))
     = true)
  /\ (forall (now : datetime) (data : dict) (r : DeprecationItem),
        from_dict now data = Ok r ->
        truthy (dict_get_or data "content_hash" (PyStr "")) = false ->
        is_hash16 (content_hash r) = true)
  /\ (forall (now : datetime) (p mi mn ad sd rm dc u ch sa : pyval),
        truthy ch = true ->
        content_hash (DeprecationItem_init now p mi mn ad sd rm dc u ch sa)
        = ch).
Proof.
  repeat apply conj.
  - intros now p mi mn ad sd rm dc u ch sa Hch.
    unfold DeprecationItem_init. rewrite post_init_content_hash. simpl.
    rewrite Hch. apply compute_hash_is_hash16.
  - intros now data r H Hch. rewrite from_dict_unfold in H.
    destruct (legacy_replacement_models data) as [rm | e]; [| discriminate].
    injection H as <-.
    unfold DeprecationItem_init. rewrite post_init_content_hash. simpl.
    rewrite Hch. apply compute_hash_is_hash16.
  - intros now p mi mn ad sd rm dc u ch sa Hch.
    unfold DeprecationItem_init. rewrite post_init_content_hash. simpl.
    now rewrite Hch.
Qed.

Lemma content_hash_format_witness :
  is_hash16
    (content_hash
       (DeprecationItem_init noon (PyStr "OpenAI") (PyStr "gpt-4")
          (PyStr "GPT-4") (PyStr "2024-01-01") (PyStr "2025-01-01") PyNone
          (PyStr "") (PyStr "") PyNone (PyStr "")))
  = true.
Proof.
  exact (proj1 content_hash_format noon (PyStr "OpenAI") (PyStr "gpt-4")
           (PyStr "GPT-4") (PyStr "2024-01-01") (PyStr "2025-01-01") PyNone
           (PyStr "") (PyStr "") PyNone (PyStr "") eq_refl).
Defined.





(** ** Further properties of the code *)

Ltac py_eq_scalar :=
  simpl; intros H1 H2;
  repeat match goal with
  | H : Bool.eqb _ _ = true |- _ => apply Bool.eqb_prop in H
  | H : (_ =? _)%Z = true |- _ => apply Z.eqb_eq in H
  | H : (_ =? _)%string = true |- _ => apply String.eqb_eq in H
  end;
  subst;
  repeat match goal with b : bool |- _ => destruct b end;
  simpl in *; try discriminate; try reflexivity;
  try apply Z.eqb_refl; try apply String.eqb_refl.

Lemma py_eq_trans (a b c : pyval) :
  py_eq a b = true -> py_eq b c = true -> py_eq a c = true.
Proof.
  revert b c.
  induction a as [| x | m | s | l IH] using pyval_ind_list;
    intros [| y | n | t | l'] [| z | k | u | l''];
    try (solve [py_eq_scalar]).
  simpl. revert l' l''.
  induction IH as [| x l Hx _ IHl]; intros [| y l'] [| z l''];
    try discriminate; try reflexivity.
  intros H1 H2.
  apply andb_true_iff in H1 as [H1 H1'].
  apply andb_true_iff in H2 as [H2 H2'].
  apply andb_true_iff.
  split; [exact (Hx y z H1 H2) | exact (IHl l' l'' H1' H2')].
Qed.

Lemma matches_previous_true (a b : DeprecationItem) :
  matches_previous a b = true
  <-> py_eq (provider a) (provider b) = true
      /\ py_eq (model_id a) (model_id b) = true
      /\ py_eq (content_hash a) (content_hash b) = true.
Proof.
  unfold matches_previous. rewrite !andb_true_iff. tauto.
Qed.

Lemma init_fields (now : datetime) (p mi mn ad sd rm dc u ch sa : pyval) :
  let r := DeprecationItem_init now p mi mn ad sd rm dc u ch sa in
  provider r = p /\ model_id r = mi /\ model_name r = mn
  /\ announcement_date r = ad /\ shutdown_date r = sd
  /\ replacement_models r = rm /\ deprecation_context r = dc /\ url r = u.
Proof.
  exact (post_init_fields now (mkDeprecationItem p mi mn ad sd rm dc u ch sa)).
Qed.

(** X1. For every record, constructed or not, on which the model of
    line 33 is the interpreter's ([hash_text_known]: its content_hash
    is truthy, or its four identity fields are each None, a bool, a
    str or an int of at most 4300 digits), [from_dict] applied to its
    [to_dict] returns, and gives the record as [__post_init__]
    completes it: the dict [to_dict] writes has no legacy key, so the
    migration step does not raise. *)
Theorem from_dict_to_dict_post_init :
  forall (now : datetime) (r : DeprecationItem),
    (hash_text_known r = true ->
     from_dict now (to_dict r) = Ok (__post_init__ now r))
    /\ legacy_replacement_models (to_dict r) = Ok (replacement_models r)
    /\ dict_has (to_dict r) "replacement_model" = false
    /\ NoDup (map fst (to_dict r)).
Proof.
  intros now r. split; [intros _ | split; [| split]].
  - unfold from_dict, legacy_replacement_models, to_dict, dict_get,
      dict_get_or, dict_has.
    simpl. rewrite andb_false_r. simpl.
    unfold DeprecationItem_init. destruct r; reflexivity.
  - unfold legacy_replacement_models, to_dict, dict_get, dict_get_or,
      dict_has.
    simpl. now rewrite andb_false_r.
  - reflexivity.
  - simpl. repeat constructor; simpl; intuition discriminate.
Qed.

Lemma from_dict_to_dict_post_init_witness :
  from_dict noon
    (to_dict
       (mkDeprecationItem (PyStr "OpenAI") (PyInt 4) PyNone (PyStr "")
          (PyBool true) (PyList []) (PyStr "") (PyStr "") (PyStr "")
          (PyStr "")))
  = Ok (__post_init__ noon
          (mkDeprecationItem (PyStr "OpenAI") (PyInt 4) PyNone (PyStr "")
             (PyBool true) (PyList []) (PyStr "") (PyStr "") (PyStr "")
             (PyStr ""))).
Proof.
  apply (proj1 (from_dict_to_dict_post_init noon
                  (mkDeprecationItem (PyStr "OpenAI") (PyInt 4) PyNone
                     (PyStr "") (PyBool true) (PyList []) (PyStr "")
                     (PyStr "") (PyStr "") (PyStr "")))).
  vm_compute. reflexivity.
Defined.

(** X2. [__post_init__] is idempotent, also across readings of the
    clock: a record it has completed is left as it is by a later run. *)
Theorem post_init_idempotent :
  forall (now now' : datetime) (self : DeprecationItem),
    __post_init__ now' (__post_init__ now self) = __post_init__ now self.
Proof.
  intros now now' self.
  destruct (post_init_truthy now self) as [Hs Hc].
  now apply post_init_fixed.
Qed.

(** X3. After a construction, [scraped_at] and [content_hash] are
    never falsy (neither empty nor None), whatever the arguments were;
    the same holds for every record [from_dict] returns. *)
Theorem scraped_at_content_hash_set :
  (forall (now : datetime) (p mi mn ad sd rm dc u ch sa : pyval),
     let r := DeprecationItem_init now p mi mn ad sd rm dc u ch sa in
     truthy (scraped_at r) = true /\ truthy (content_hash r) = true)
  /\ (forall (now : datetime) (data : dict) (r : DeprecationItem),
        from_dict now data = Ok r ->
        truthy (scraped_at r) = true /\ truthy (content_hash r) = true).
Proof.
  split.
  - intros. apply post_init_truthy.
  - intros now data r H. rewrite from_dict_unfold in H.
    destruct (legacy_replacement_models data) as [rm | e]; [| discriminate].
    injection H as <-. apply post_init_truthy.
Qed.

Lemma scraped_at_content_hash_set_witness :
  exists r : DeprecationItem,
    from_dict noon [("content_hash", PyNone); ("scraped_at", PyInt 0)] = Ok r
    /\ truthy (scraped_at r) = true /\ truthy (content_hash r) = true.
Proof.
  eexists. split; [reflexivity |].
  exact (proj2 scraped_at_content_hash_set noon
           [("content_hash", PyNone); ("scraped_at", PyInt 0)] _ eq_refl).
Defined.

(** X4. [from_dict] depends on its dict only through the values bound
    to the eleven keys it reads: two dicts that agree on them give the
    same result, record or exception, so the order of the entries and
    any other key are ignored. *)
Theorem from_dict_reads_eleven_keys :
  forall (now : datetime) (d1 d2 : dict),
    Forall (fun k => dict_lookup d1 k = dict_lookup d2 k) from_dict_keys ->
    from_dict now d1 = from_dict now d2.
Proof.
  intros now d1 d2 H. unfold from_dict_keys in H.
  repeat match type of H with
         | Forall _ (_ :: _) =>
             let Hk := fresh "Hk" in
             let H' := fresh "H" in
             inversion H as [| ? ? Hk H']; subst; clear H; rename H' into H
         end.
  unfold from_dict, legacy_replacement_models, dict_get, dict_get_or, dict_has.
  now rewrite Hk, Hk0, Hk1, Hk2, Hk3, Hk4, Hk5, Hk6, Hk7, Hk8, Hk9.
Qed.

Lemma from_dict_reads_eleven_keys_witness :
  from_dict noon
    [("provider", PyStr "OpenAI"); ("model_id", PyStr "gpt-4");
     ("replacement_model", PyStr "gpt-4o")]
  = from_dict noon
      [("note", PyInt 1); ("replacement_model", PyStr "gpt-4o");
       ("model_id", PyStr "gpt-4"); ("provider", PyStr "OpenAI")].
Proof.
  apply from_dict_reads_eleven_keys. repeat constructor.
Defined.

(** X5. In the record [from_dict] returns, a key that is present
    among provider, model_id, model_name, announcement_date,
    shutdown_date, deprecation_context and url keeps its value
    whatever its shape: a null stays None, the default "" being for a
    missing key only.  A present content_hash or scraped_at is kept
    when it is truthy and replaced, by the derived hash or by the
    timestamp of the clock, when it is falsy. *)
Theorem from_dict_present_keys :
  forall (now : datetime) (data : dict) (r : DeprecationItem),
    from_dict now data = Ok r ->
    (forall v, dict_lookup data "provider" = Some v -> provider r = v)
    /\ (forall v, dict_lookup data "model_id" = Some v -> model_id r = v)
    /\ (forall v, dict_lookup data "model_name" = Some v -> model_name r = v)
    /\ (forall v, dict_lookup data "announcement_date" = Some v ->
                  announcement_date r = v)
    /\ (forall v, dict_lookup data "shutdown_date" = Some v ->
                  shutdown_date r = v)
    /\ (forall v, dict_lookup data "deprecation_context" = Some v ->
                  deprecation_context r = v)
    /\ (forall v, dict_lookup data "url" = Some v -> url r = v)
    /\ (forall v, dict_lookup data "content_hash" = Some v ->
                  content_hash r
                  = if truthy v then v
                    else PyStr (_compute_hash (unique_content r)))
    /\ (forall v, dict_lookup data "scraped_at" = Some v ->
                  scraped_at r
                  = if truthy v then v else PyStr (isoformat now)).
Proof.
  intros now data r H. rewrite from_dict_unfold in H.
  destruct (legacy_replacement_models data) as [rm | e]; [| discriminate].
  injection H as <-. unfold DeprecationItem_init.
  match goal with |- context [__post_init__ now ?x] => set (self := x) end.
  destruct (post_init_fields now self)
    as (Hp & Hmi & Hmn & Had & Hsd & Hrm & Hdc & Hu).
  rewrite Hp, Hmi, Hmn, Had, Hsd, Hdc, Hu.
  rewrite post_init_content_hash, post_init_scraped_at.
  unfold unique_content. rewrite Hp, Hmi, Had, Hsd.
  subst self. unfold dict_get_or. simpl.
  repeat split; intros v ->; reflexivity.
Qed.

Lemma from_dict_present_keys_witness :
  exists r : DeprecationItem,
    from_dict noon [("provider", PyNone)] = Ok r
    /\ provider r = PyNone
    /\ content_hash r = PyStr (_compute_hash "None|||").
Proof.
  eexists. split; [reflexivity |]. split.
  - exact (proj1 (from_dict_present_keys noon [("provider", PyNone)] _ eq_refl)
             PyNone eq_refl).
  - reflexivity.
Defined.

(** X6. Two constructions that give no hash and agree on provider,
    model_id, shutdown_date and announcement_date make records that
    match each other, whatever the other fields and the two readings
    of the clock: a second scrape of an unchanged notice matches the
    first. *)
Theorem rescrape_matches_previous :
  forall (now now' : datetime) (p mi ad sd : pyval)
         (mn rm dc u sa mn' rm' dc' u' sa' : pyval),
    matches_previous
      (DeprecationItem_init now p mi mn ad sd rm dc u (PyStr "") sa)
      (DeprecationItem_init now' p mi mn' ad sd rm' dc' u' (PyStr "") sa')
    = true.
Proof.
  intros. apply matches_previous_true.
  rewrite !init_content_hash_empty.
  destruct (init_fields now p mi mn ad sd rm dc u (PyStr "") sa)
    as (-> & -> & _).
  destruct (init_fields now' p mi mn' ad sd rm' dc' u' (PyStr "") sa')
    as (-> & -> & _).
  repeat split; apply py_eq_refl.
Qed.

(** X7. [matches_previous] is transitive; with the reflexivity and
    symmetry of C4 it is an equivalence relation on records. *)
Theorem matches_previous_trans :
  forall a b c : DeprecationItem,
    matches_previous a b = true ->
    matches_previous b c = true ->
    matches_previous a c = true.
Proof.
  intros a b c Hab Hbc.
  apply matches_previous_true in Hab as (Hp & Hm & Hc).
  apply matches_previous_true in Hbc as (Hp' & Hm' & Hc').
  apply matches_previous_true. repeat split; eapply py_eq_trans; eassumption.
Qed.

Lemma matches_previous_trans_witness :
  matches_previous
    (mkDeprecationItem (PyBool true) (PyStr "m") (PyStr "A") (PyStr "")
       (PyStr "") PyNone (PyStr "") (PyStr "") (PyStr "h") (PyStr "t1"))
    (mkDeprecationItem (PyBool true) (PyStr "m") (PyStr "C") (PyStr "")
       (PyStr "") PyNone (PyStr "") (PyStr "") (PyStr "h") (PyStr "t3"))
  = true.
Proof.
  apply (matches_previous_trans _
           (mkDeprecationItem (PyInt 1) (PyStr "m") (PyStr "B") (PyStr "")
              (PyStr "") PyNone (PyStr "") (PyStr "") (PyStr "h") (PyStr "t2")));
    reflexivity.
Defined.

(** *** Removing a key *)

Lemma dict_remove_lookup (d : dict) (k k' : string) :
  dict_lookup (dict_remove d k) k'
  = if k =? k' then None else dict_lookup d k'.
Proof.
  unfold dict_remove.
  induction d as [| [k0 v] d IH]; simpl.
  - now destruct (k =? k').
  - destruct (k0 =? k) eqn:E0; simpl.
    + apply String.eqb_eq in E0. subst k0. rewrite IH.
      now destruct (k =? k').
    + destruct (k0 =? k') eqn:E1; [| exact IH].
      apply String.eqb_eq in E1. subst k0.
      rewrite String.eqb_sym in E0. now rewrite E0.
Qed.

(** X8. A hash that was derived need not be stored: for a record
    constructed with no hash given, [from_dict] applied to its
    [to_dict] without the content_hash key returns the same record,
    the hash being derived again from the stored fields.  Without the
    scraped_at key, [from_dict] returns the record with the timestamp
    of the new reading of the clock, nothing else being changed. *)
Theorem from_dict_without_derived :
  (forall (now now' : datetime) (p mi mn ad sd rm dc u ch sa : pyval),
     truthy ch = false ->
     let r := DeprecationItem_init now p mi mn ad sd rm dc u ch sa in
     from_dict now' (dict_remove (to_dict r) "content_hash") = Ok r)
  /\ (forall (now now' : datetime) (p mi mn ad sd rm dc u ch sa : pyval),
        let r := DeprecationItem_init now p mi mn ad sd rm dc u ch sa in
        from_dict now' (dict_remove (to_dict r) "scraped_at")
        = Ok (set_scraped_at r (PyStr (isoformat now')))).
Proof.
  split.
  - intros now now' p mi mn ad sd rm dc u ch sa Hch r. subst r.
    unfold DeprecationItem_init.
    set (self := mkDeprecationItem p mi mn ad sd rm dc u ch sa).
    destruct (post_init_truthy now self) as [Hs _].
    pose proof (post_init_content_hash now self) as Hh.
    simpl in Hh. rewrite Hch in Hh.
    destruct (post_init_fields now self)
      as (Hp & Hmi & Hmn & Had & Hsd & Hrm & Hdc & Hu).
    unfold unique_content in Hh. simpl in Hp, Hmi, Hmn, Had, Hsd, Hrm, Hdc, Hu, Hh.
    destruct (__post_init__ now self)
      as [p0 mi0 mn0 ad0 sd0 rm0 dc0 u0 ch0 sa0].
    simpl in *. subst.
    unfold from_dict, legacy_replacement_models, dict_get, dict_get_or,
      dict_has, dict_remove, to_dict.
    simpl. rewrite andb_false_r. simpl.
    unfold DeprecationItem_init, __post_init__. simpl. rewrite Hs. simpl.
    reflexivity.
  - intros now now' p mi mn ad sd rm dc u ch sa r. subst r.
    unfold DeprecationItem_init.
    set (self := mkDeprecationItem p mi mn ad sd rm dc u ch sa).
    destruct (post_init_truthy now self) as [_ Hc].
    destruct (__post_init__ now self)
      as [p0 mi0 mn0 ad0 sd0 rm0 dc0 u0 ch0 sa0].
    simpl in Hc.
    unfold from_dict, legacy_replacement_models, dict_get, dict_get_or,
      dict_has, dict_remove, to_dict.
    simpl. rewrite andb_false_r. simpl.
    unfold DeprecationItem_init, __post_init__. simpl. rewrite Hc. reflexivity.
Qed.

Lemma from_dict_without_derived_witness :
  from_dict later
    (dict_remove
       (to_dict
          (DeprecationItem_init noon (PyStr "OpenAI") (PyStr "gpt-4")
             (PyStr "GPT-4") (PyStr "2024-01-01") (PyStr "2025-01-01")
             PyNone (PyStr "") (PyStr "") (PyStr "") (PyStr "")))
       "content_hash")
  = Ok (DeprecationItem_init noon (PyStr "OpenAI") (PyStr "gpt-4")
          (PyStr "GPT-4") (PyStr "2024-01-01") (PyStr "2025-01-01")
          PyNone (PyStr "") (PyStr "") (PyStr "") (PyStr "")).
Proof.
  exact (proj1 from_dict_without_derived noon later (PyStr "OpenAI")
           (PyStr "gpt-4") (PyStr "GPT-4") (PyStr "2024-01-01")
           (PyStr "2025-01-01") PyNone (PyStr "") (PyStr "") (PyStr "")
           (PyStr "") eq_refl).
Defined.

(** X9. The clock reaches [scraped_at] only: at two readings of the
    clock [from_dict] raises the same exception or returns two records
    equal in every field but [scraped_at], and equal in all when the
    dict holds a truthy scraped_at. *)
Theorem from_dict_clock_only_scraped_at :
  forall (now now' : datetime) (data : dict),
    match from_dict now data, from_dict now' data with
    | Ok r, Ok r' =>
        set_scraped_at r PyNone = set_scraped_at r' PyNone
        /\ (truthy (dict_get_or data "scraped_at" (PyStr "")) = true ->
            r = r')
    | Raise e, Raise e' => e = e'
    | _, _ => False
    end.
Proof.
  intros now now' data. rewrite !from_dict_unfold.
  destruct (legacy_replacement_models data) as [rm | e]; [| reflexivity].
  unfold DeprecationItem_init, __post_init__. simpl.
  destruct (truthy (dict_get_or data "scraped_at" (PyStr ""))); simpl;
    destruct (truthy (dict_get_or data "content_hash" (PyStr ""))); simpl;
    split; try reflexivity; intros; discriminate.
Qed.

(** *** The migration on values that are not strs *)

Lemma legacy_get (data : dict) (old : pyval) :
  dict_lookup data "replacement_model" = Some old ->
  dict_has data "replacement_model" = true
  /\ dict_get data "replacement_model" = old.
Proof.
  intros H. unfold dict_has, dict_get, dict_get_or. now rewrite H.
Qed.



(** X11. The exception [from_dict] raises on a legacy value tells its
    shape: with replacement_models absent or null, True and a non-zero
    int raise TypeError (at the test ["or" in old_value]) and a list
    with the element "or" raises AttributeError (at the call of
    [split]). *)
Theorem legacy_exception_kinds :
  forall (now : datetime) (data : dict) (old : pyval),
    dict_get data "replacement_models" = PyNone ->
    dict_lookup data "replacement_model" = Some old ->
    (old = PyBool true -> from_dict now data = Raise TypeError)
    /\ (forall n : Z,
          old = PyInt n -> n <> 0%Z -> from_dict now data = Raise TypeError)
    /\ (forall l : list pyval,
          old = PyList l -> existsb (py_eq (PyStr "or")) l = true ->
          from_dict now data = Raise AttributeError).
Proof.
  intros now data old Hnew Hold.
  destruct (legacy_get data old Hold) as [Hhas Hget].
  rewrite from_dict_unfold. unfold legacy_replacement_models.
  rewrite Hnew, Hhas, Hget. cbn [is_None andb]. repeat split.
  - intros ->. reflexivity.
  - intros n -> Hn. cbn [truthy]. apply Z.eqb_neq in Hn. now rewrite Hn.
  - intros l -> Hor. cbn [py_in bind]. rewrite Hor.
    destruct l; [discriminate | reflexivity].
Qed.

Lemma legacy_exception_kinds_witness :
  from_dict noon [("replacement_models", PyNone); ("replacement_model", PyInt 3)]
  = Raise TypeError.
Proof.
  refine (proj1 (proj2 (legacy_exception_kinds noon
                   [("replacement_models", PyNone);
                    ("replacement_model", PyInt 3)]
                   _ eq_refl eq_refl)) 3%Z eq_refl _).
  discriminate.
Defined.

(** *** Splitting and joining *)











(** X13. The derived hash covers the text of the identity fields, not
    their type: with no hash given, a provider that is the int n and a
    provider that is the str of its decimal digits get the same
    content_hash, while the two records do not match, an int never
    being [==] to a str. *)
Theorem content_hash_text_only :
  forall (now now' : datetime) (n : Z)
         (mi mn ad sd rm dc u sa mn' rm' dc' u' sa' : pyval),
    let a := DeprecationItem_init now (PyInt n) mi mn ad sd rm dc u
               (PyStr "") sa in
    let b := DeprecationItem_init now' (PyStr (dec_of_Z n)) mi mn' ad sd rm'
               dc' u' (PyStr "") sa' in
    content_hash a = content_hash b /\ matches_previous a b = false.
Proof.
  intros. subst a b. split.
  - now rewrite !init_content_hash_empty.
  - unfold matches_previous.
    destruct (init_fields now (PyInt n) mi mn ad sd rm dc u (PyStr "") sa)
      as (-> & _).
    destruct (init_fields now' (PyStr (dec_of_Z n)) mi mn' ad sd rm' dc' u'
                (PyStr "") sa') as (-> & _).
    reflexivity.
Qed.

Lemma str_take_prefix (n : nat) (s : string) : prefix (str_take n s) s = true.
Proof.
  revert s. induction n as [| n IH]; intros [| c s]; simpl; try reflexivity.
  destruct (Ascii.ascii_dec c c) as [_ | Hc]; [apply IH | now elim Hc].
Qed.

(** X14. For every content, also the empty one, [_compute_hash] gives
    a text of exactly 16 lowercase hexadecimal digits, the first 16 of
    the 64 digits of the SHA-256 hex digest. *)
Theorem compute_hash_format :
  forall content : string,
    String.length (_compute_hash content) = 16
    /\ string_forallb is_lower_hex (_compute_hash content) = true
    /\ String.length (Sha256.hexdigest content) = 64
    /\ prefix (_compute_hash content) (Sha256.hexdigest content) = true.
Proof.
  intros content. split; [| split; [| split]].
  - apply compute_hash_length.
  - unfold _compute_hash. apply str_take_forallb, hexdigest_lower_hex.
  - apply hexdigest_length.
  - unfold _compute_hash. apply str_take_prefix.
Qed.
